(** * Shallow embedding of the test-drive booking core of
    auto_dealership_assistant (src/src/agents.py, src/src/api.py,
    src/src/orchestrator.py).

    Python strings are [String.string] (ASCII / UTF-8 bytes); integers are
    [Z]. The wall clock [datetime.now()] is an explicit argument [clock],
    read once per call. *)

From Stdlib Require Import String Ascii List ZArith Bool Lia.
Import ListNotations.
Open Scope string_scope.
Open Scope Z_scope.

(** ** String helpers (Python builtins) *)

Definition nl : string := String (ascii_of_nat 10) EmptyString.

(** [str.lower] on ASCII letters. Python lowers every cased Unicode
    character; the theorems whose content depends on lowering take the
    lowering function as a parameter standing for [str.lower], and this
    ASCII version serves to evaluate examples written in ASCII. *)
Definition lower_ascii (c : ascii) : ascii :=
  let n := nat_of_ascii c in
  if (Nat.leb 65 n && Nat.leb n 90)%bool then ascii_of_nat (n + 32) else c.

Fixpoint lower (s : string) : string :=
  match s with
  | EmptyString => EmptyString
  | String c t => String (lower_ascii c) (lower t)
  end.

Fixpoint prefixb (p s : string) : bool :=
  match p, s with
  | EmptyString, _ => true
  | String c p', String d s' => Ascii.eqb c d && prefixb p' s'
  | String _ _, EmptyString => false
  end.

(** Python's [needle in hay] on strings. On UTF-8 bytes a code-point
    substring is exactly a byte substring, the encoding being
    self-synchronising. *)
Fixpoint str_contains (needle hay : string) : bool :=
  prefixb needle hay ||
  match hay with
  | EmptyString => false
  | String _ t => str_contains needle t
  end.

(** [str(n)] for an integer. *)
Fixpoint digits_aux (fuel : nat) (n : Z) (acc : string) : string :=
  match fuel with
  | O => acc
  | S f =>
      let acc' := String (ascii_of_nat (48 + Z.to_nat (Z.rem n 10))) acc in
      if Z.eqb (Z.quot n 10) 0 then acc' else digits_aux f (Z.quot n 10) acc'
  end.

Definition str_of_Z (z : Z) : string :=
  let fuel := S (S (Z.to_nat (Z.log2 (Z.abs z)))) in
  if z <? 0 then "-" ++ digits_aux fuel (- z) "" else digits_aux fuel z "".

(** ** Dates: [datetime.date] and [datetime.fromisoformat] *)

Record date := mk_date { year : Z; month : Z; day : Z }.

Definition is_leap (y : Z) : bool :=
  (Z.eqb (y mod 4) 0 && negb (Z.eqb (y mod 100) 0)) || Z.eqb (y mod 400) 0.

Definition days_in_month (y m : Z) : Z :=
  match m with
  | 2 => if is_leap y then 29 else 28
  | 4 | 6 | 9 | 11 => 30
  | _ => 31
  end.

(** [_days_before_year], [_days_before_month] and [_ymd2ord] of CPython's
    datetime module: [date.toordinal]. *)
Definition days_before_year (y : Z) : Z :=
  let y1 := y - 1 in y1 * 365 + y1 / 4 - y1 / 100 + y1 / 400.

Definition days_before_month (y m : Z) : Z :=
  let base := nth (Z.to_nat m) [0; 0; 31; 59; 90; 120; 151; 181; 212; 243; 273; 304; 334] 0 in
  base + (if (Z.ltb 2 m && is_leap y)%bool then 1 else 0).

Definition toordinal (d : date) : Z :=
  days_before_year (year d) + days_before_month (year d) (month d) + day d.

(** The range checks of the [date] constructor. *)
Definition valid_date (y m d : Z) : bool :=
  (1 <=? y) && (y <=? 9999) && (1 <=? m) && (m <=? 12)
  && (1 <=? d) && (d <=? days_in_month y m).

Definition digit_val (c : ascii) : option Z :=
  let n := nat_of_ascii c in
  if (Nat.leb 48 n && Nat.leb n 57)%bool then Some (Z.of_nat (n - 48)) else None.

Fixpoint digits_val (s : list ascii) (acc : Z) : option Z :=
  match s with
  | [] => Some acc
  | c :: t => match digit_val c with
              | Some v => digits_val t (acc * 10 + v)
              | None => None
              end
  end.

Definition dash : ascii := "-"%char.
Definition colon : ascii := ":"%char.

(** [_parse_isoformat_date]: [YYYY-MM-DD] followed by the date checks. *)
Definition parse_isoformat_date (s : list ascii) : option date :=
  match s with
  | [y1; y2; y3; y4; s1; m1; m2; s2; d1; d2] =>
      if (Ascii.eqb s1 dash && Ascii.eqb s2 dash)%bool then
        match digits_val [y1; y2; y3; y4] 0, digits_val [m1; m2] 0,
              digits_val [d1; d2] 0 with
        | Some y, Some m, Some d =>
            if valid_date y m d then Some (mk_date y m d) else None
        | _, _, _ => None
        end
      else None
  | _ => None
  end.

(** [_parse_isoformat_time] on [HH], [HH:MM] and [HH:MM:SS]; fractional
    seconds and UTC offsets are not modelled and are rejected here. *)
Definition parse_isoformat_time (t : list ascii) : bool :=
  let two a b lim :=
    match digits_val [a; b] 0 with Some v => v <? lim | None => false end in
  match t with
  | [h1; h2] => two h1 h2 24
  | [h1; h2; c1; mi1; mi2] => Ascii.eqb c1 colon && two h1 h2 24 && two mi1 mi2 60
  | [h1; h2; c1; mi1; mi2; c2; s1; s2] =>
      Ascii.eqb c1 colon && Ascii.eqb c2 colon && two h1 h2 24
      && two mi1 mi2 60 && two s1 s2 60
  | _ => false
  end.

(** [datetime.fromisoformat(s)], keeping only the date (the code then calls
    [.date()]), on the forms [YYYY-MM-DD] and [YYYY-MM-DD] followed by a
    one-byte separator and [HH], [HH:MM] or [HH:MM:SS]; a separator with
    nothing after it is rejected. Python accepts more forms (fractional
    seconds and UTC offsets, and from 3.11 also [Z] and basic formats such as
    [20240120]), which this function rejects. The availability check below is
    therefore written for any parser, and the theorems about it hold for every
    one; this function only evaluates examples in the forms above, which every
    Python version from 3.7 on parses alike. *)
Definition fromisoformat (s : string) : option date :=
  let cs := list_ascii_of_string s in
  match parse_isoformat_date (firstn 10 cs) with
  | None => None
  | Some d =>
      match skipn 10 cs with
      | [] => Some d
      | _ :: [] => None
      | _ :: tstr => if parse_isoformat_time tstr then Some d else None
      end
  end.

(** ** Data model *)

(** An inventory entry (a JSON object); fields read with [.get] and a
    default are optional. The fields the code reads by subscript
    ([car['brand']], [car['model']]) and the remaining descriptive ones are
    taken to be present. *)
Record car := mk_car {
  car_id_field : option string;          (* car.get("id") *)
  brand : string;
  model : string;
  car_year : Z;
  car_type : option string;              (* car.get("type", "") *)
  price_range : string;
  features : list string;
  fuel_type : option string;
  seating_capacity : option Z;
  test_drive_duration_minutes : option Z; (* car.get(..., 60) *)
  availability : option bool             (* car.get("availability", False) *)
}.

(** [TestDriveBooking]; [booking_timestamp] keeps the clock reading that
    [datetime.now().isoformat()] renders. *)
Record TestDriveBooking := mk_booking {
  booking_id : string;
  customer_name : string;
  customer_phone : string;
  customer_email : option string;
  car_model : string;
  car_id : string;
  preferred_date : string;
  preferred_time : string;
  test_drive_duration : Z;
  booking_status : string;
  booking_timestamp : Z
}.

(** [KnowledgeBase]: the loaded JSON ([self.data]) and [self.bookings]. *)
Record KnowledgeBase := mk_kb {
  data_inventory : option (list car);    (* self.data.get("inventory", []) *)
  bookings : list TestDriveBooking
}.

(** One reading of [datetime.now()]: its POSIX timestamp in microseconds and
    its calendar date. *)
Record clock := mk_clock { now_us : Z; today : date }.

Definition inventory (kb : KnowledgeBase) : list car :=
  match data_inventory kb with Some l => l | None => [] end.

(** ** KnowledgeBase methods *)

(** [search_cars_by_type], for a lowering function [str_lower] standing for
    Python's [str.lower]. *)
Definition search_cars_by_type_with (str_lower : string -> string) (kb : KnowledgeBase)
    (ty : string) : list car :=
  filter (fun c => str_contains (str_lower ty)
                     (str_lower (match car_type c with Some t => t | None => "" end)))
         (inventory kb).

Definition search_cars_by_type (kb : KnowledgeBase) (ty : string) : list car :=
  search_cars_by_type_with lower kb ty.

Definition id_matches (cid : string) (c : car) : bool :=
  match car_id_field c with Some i => String.eqb i cid | None => false end.

Fixpoint find_car (cid : string) (l : list car) : option car :=
  match l with
  | [] => None
  | c :: t => if id_matches cid c then Some c else find_car cid t
  end.

Definition get_car_details (kb : KnowledgeBase) (cid : string) : option car :=
  find_car cid (inventory kb).

Definition get_available_cars (kb : KnowledgeBase) : list car :=
  filter (fun c => match availability c with Some b => b | None => false end)
         (inventory kb).

(** [check_time_availability] for a parser [fromiso] standing for
    [datetime.fromisoformat] ([None] for the [ValueError] it raises);
    [time_str] is not used by the source. *)
Definition check_time_availability_with (fromiso : string -> option date) (clk : clock)
    (kb : KnowledgeBase) (date_str time_str : string) : bool :=
  match fromiso date_str with
  | None => false                                          (* except ValueError *)
  | Some requested =>
      if toordinal requested <? toordinal (today clk) then false
      else if toordinal requested - toordinal (today clk) >? 30 then false
      else true
  end.

Definition check_time_availability (clk : clock) (kb : KnowledgeBase)
    (date_str time_str : string) : bool :=
  check_time_availability_with fromisoformat clk kb date_str time_str.

(** [KnowledgeBase.book_test_drive]: appends, returns [True]. *)
Definition kb_book_test_drive (kb : KnowledgeBase) (b : TestDriveBooking)
    : bool * KnowledgeBase :=
  (true, mk_kb (data_inventory kb) (bookings kb ++ [b])).

(** ** DealershipTools *)

Definition check_availability_with (fromiso : string -> option date) (clk : clock)
    (kb : KnowledgeBase) (date time : string) : string :=
  if check_time_availability_with fromiso clk kb date time
  then "Great! " ++ date ++ " at " ++ time ++ " is available for booking."
  else "Sorry, " ++ date ++ " at " ++ time ++ " is not available. Please choose another time.".

Definition check_availability (clk : clock) (kb : KnowledgeBase) (date time : string)
    : string :=
  check_availability_with fromisoformat clk kb date time.

(** [f"TD-{int(datetime.now().timestamp())}"]; [int] truncates. *)
Definition new_booking_id (clk : clock) : string :=
  "TD-" ++ str_of_Z (Z.quot (now_us clk) 1000000).

Definition booked_message (b : TestDriveBooking) (customer_phone : string) : string :=
  "✓ Test drive booked successfully!" ++ nl
  ++ "Booking ID: " ++ booking_id b ++ nl
  ++ "Car: " ++ car_model b ++ nl
  ++ "Date: " ++ preferred_date b ++ " at " ++ preferred_time b ++ nl
  ++ "Duration: " ++ str_of_Z (test_drive_duration b) ++ " minutes" ++ nl
  ++ "Confirmation sent to " ++ customer_phone.

Definition make_booking (clk : clock) (c : car) (name phone cid date time : string)
    : TestDriveBooking :=
  {| booking_id := new_booking_id clk;
     customer_name := name;
     customer_phone := phone;
     customer_email := None;
     car_model := brand c ++ " " ++ model c;
     car_id := cid;
     preferred_date := date;
     preferred_time := time;
     test_drive_duration :=
       match test_drive_duration_minutes c with Some n => n | None => 60 end;
     booking_status := "confirmed";
     booking_timestamp := now_us clk |}.

(** [DealershipTools.book_test_drive]: the reply and the mutated knowledge
    base. *)
Definition book_test_drive (clk : clock) (kb : KnowledgeBase)
    (name phone cid date time : string) : string * KnowledgeBase :=
  match get_car_details kb cid with
  | None => ("Cannot book: Car with ID '" ++ cid ++ "' not found", kb)
  | Some c =>
      if negb (check_time_availability clk kb date time)
      then ("Cannot book: " ++ date ++ " at " ++ time ++ " is not available", kb)
      else
        let b := make_booking clk c name phone cid date time in
        let '(success, kb') := kb_book_test_drive kb b in
        if success then (booked_message b phone, kb')
        else ("Failed to book test drive. Please try again.", kb')
  end.

(** A run of [book_test_drive] calls for one slot, the i-th call reading the
    i-th clock value; the replies in call order. *)
Fixpoint book_many (clks : list clock) (kb : KnowledgeBase)
    (name phone cid date time : string) : list string * KnowledgeBase :=
  match clks with
  | [] => ([], kb)
  | clk :: rest =>
      let '(r, kb1) := book_test_drive clk kb name phone cid date time in
      let '(rs, kb2) := book_many rest kb1 name phone cid date time in
      (r :: rs, kb2)
  end.

(** ** ConversationAgent and the chat endpoint *)

Inductive role := Human | AI.

Definition transcript := list (role * string).

(** What the external decision process (the LLM behind [AgentExecutor],
    tools included) yields for a history and an input: a final answer, or an
    exception (network, timeout, ...). *)
Inductive decision :=
| Answer (output : string)
| OracleFailure (err : string).

Definition oracle := transcript -> string -> decision.

(** [AgentExecutor.invoke] with [ConversationBufferMemory]: on success the
    turn is saved to memory and [{"output": ...}] returned; on failure the
    exception propagates and memory is left as it was. *)
Definition agent_invoke (o : oracle) (mem : transcript) (input : string)
    : decision * transcript :=
  match o mem input with
  | Answer out => (Answer out, (mem ++ [(Human, input); (AI, out)])%list)
  | OracleFailure e => (OracleFailure e, mem)
  end.

(** [ConversationAgent.process_input]: the [try]/[except Exception]. *)
Definition process_input (o : oracle) (mem : transcript) (user_input : string)
    : string * transcript :=
  match agent_invoke o mem user_input with
  | (Answer out, mem') => (out, mem')
  | (OracleFailure e, mem') => ("Sorry, I encountered an error: " ++ e, mem')
  end.

(** The single module-level [assistant] of api.py. *)
Record DealershipAssistant := mk_assistant {
  knowledge_base : KnowledgeBase;
  memory : transcript                    (* conversation_agent.memory *)
}.

Definition process_text (o : oracle) (a : DealershipAssistant) (user_input : string)
    : string * DealershipAssistant :=
  let '(r, mem') := process_input o (memory a) user_input in
  (r, mk_assistant (knowledge_base a) mem').

Record ChatRequest := mk_chat_request { message : string; session_id : option string }.
Record ChatResponse := mk_chat_response { response : string; resp_session_id : option string }.

(** [chat]: the request's [session_id] is only echoed back. *)
Definition chat (o : oracle) (a : DealershipAssistant) (req : ChatRequest)
    : ChatResponse * DealershipAssistant :=
  let '(r, a') := process_text o a (message req) in
  (mk_chat_response r (session_id req), a').

(** A sequence of chat requests served in order. *)
Fixpoint chat_run (o : oracle) (a : DealershipAssistant) (reqs : list ChatRequest)
    : list ChatResponse * DealershipAssistant :=
  match reqs with
  | [] => ([], a)
  | r :: rest =>
      let '(resp, a1) := chat o a r in
      let '(resps, a2) := chat_run o a1 rest in
      (resp :: resps, a2)
  end.

(** The replies a run gives to one session identifier. *)
Definition replies_for (sid : string) (resps : list ChatResponse) : list string :=
  map response
    (filter (fun r => match resp_session_id r with
                      | Some s => String.eqb s sid | None => false end) resps).

(** ** Further KnowledgeBase, agent and endpoint code *)

(** A Python dict with string keys and values, as the list of its items
    (keys distinct, so the first match is the entry). *)
Definition str_dict := list (string * string).

Fixpoint dict_get (k : string) (d : str_dict) : option string :=
  match d with
  | [] => None
  | (k', v) :: t => if String.eqb k' k then Some v else dict_get k t
  end.

Definition dict_get_default (k : string) (d : str_dict) (dflt : string) : string :=
  match dict_get k d with Some v => v | None => dflt end.

(** [KnowledgeBase.search_cars_by_brand], for a lowering function. *)
Definition search_cars_by_brand_with (str_lower : string -> string) (kb : KnowledgeBase)
    (b : string) : list car :=
  filter (fun c => str_contains (str_lower b) (str_lower (brand c))) (inventory kb).

Definition search_cars_by_brand (kb : KnowledgeBase) (b : string) : list car :=
  search_cars_by_brand_with lower kb b.

(** Lookup of a booking by identifier, as in
    [BookingAgent.get_booking_confirmation] and the [get_booking] endpoint:
    the first booking with that identifier. *)
Fixpoint find_booking (bid : string) (l : list TestDriveBooking) : option TestDriveBooking :=
  match l with
  | [] => None
  | b :: t => if String.eqb (booking_id b) bid then Some b else find_booking bid t
  end.

Definition get_booking_confirmation (kb : KnowledgeBase) (bid : string)
    : option TestDriveBooking :=
  find_booking bid (bookings kb).

(** [KnowledgeAgent.get_car_recommendations], for a lowering function. *)
Definition get_car_recommendations (str_lower : string -> string) (kb : KnowledgeBase)
    (preferences : str_dict) : list car :=
  let ct := str_lower (dict_get_default "type" preferences "") in
  let results := if String.eqb ct "" then get_available_cars kb
                 else search_cars_by_type_with str_lower kb ct in
  firstn 3 results.

Definition required_fields : list string :=
  ["customer_name"; "customer_phone"; "car_id"; "preferred_date"; "preferred_time"].

(** [BookingAgent.confirm_booking]. The [duration] entry, when present, is a
    string that pydantic's [int] field validation converts ([coerce_int]); a
    failed conversion raises, written [None]. *)
Definition confirm_booking (coerce_int : string -> option Z) (clk : clock)
    (kb : KnowledgeBase) (details : str_dict) : option (bool * KnowledgeBase) :=
  if negb (forallb (fun f => match dict_get f details with Some _ => true | None => false end)
             required_fields)
  then Some (false, kb)
  else
    let duration := match dict_get "duration" details with
                    | None => Some 60
                    | Some s => coerce_int s
                    end in
    match duration with
    | None => None
    | Some dur =>
        let b := {| booking_id := new_booking_id clk;
                    customer_name := dict_get_default "customer_name" details "";
                    customer_phone := dict_get_default "customer_phone" details "";
                    customer_email := None;
                    car_model := dict_get_default "car_model" details "";
                    car_id := dict_get_default "car_id" details "";
                    preferred_date := dict_get_default "preferred_date" details "";
                    preferred_time := dict_get_default "preferred_time" details "";
                    test_drive_duration := dur;
                    booking_status := "confirmed";
                    booking_timestamp := now_us clk |} in
        Some (kb_book_test_drive kb b)
    end.

(** *** REST endpoints (api.py) *)

Inductive http_result (A : Type) :=
| HttpOk (v : A)
| HttpError (status_code : Z) (detail : string).
Arguments HttpOk {A} v.
Arguments HttpError {A} status_code detail.

Record TestDriveBookingRequest := mk_booking_request {
  req_customer_name : string;
  req_customer_phone : string;
  req_customer_email : option string;
  req_car_id : string;
  req_preferred_date : string;
  req_preferred_time : string
}.

Record TestDriveBookingResponse := mk_booking_response {
  resp_booking_id : string;
  resp_customer_name : string;
  resp_car_model : string;
  resp_preferred_date : string;
  resp_preferred_time : string;
  resp_booking_status : string;
  resp_message : string
}.

(** [create_booking] (POST /api/v1/bookings). *)
Definition create_booking (clk : clock) (kb : KnowledgeBase) (req : TestDriveBookingRequest)
    : http_result TestDriveBookingResponse * KnowledgeBase :=
  match get_car_details kb (req_car_id req) with
  | None => (HttpError 404 "Car not found", kb)
  | Some c =>
      if negb (check_time_availability clk kb (req_preferred_date req) (req_preferred_time req))
      then (HttpError 400 "Requested time is not available", kb)
      else
        let b := {| booking_id := new_booking_id clk;
                    customer_name := req_customer_name req;
                    customer_phone := req_customer_phone req;
                    customer_email := req_customer_email req;
                    car_model := brand c ++ " " ++ model c;
                    car_id := req_car_id req;
                    preferred_date := req_preferred_date req;
                    preferred_time := req_preferred_time req;
                    test_drive_duration :=
                      match test_drive_duration_minutes c with Some n => n | None => 60 end;
                    booking_status := "confirmed";
                    booking_timestamp := now_us clk |} in
        let '(ok, kb') := kb_book_test_drive kb b in
        if negb ok then (HttpError 400 "Failed to create booking", kb')
        else (HttpOk {| resp_booking_id := booking_id b;
                        resp_customer_name := customer_name b;
                        resp_car_model := car_model b;
                        resp_preferred_date := preferred_date b;
                        resp_preferred_time := preferred_time b;
                        resp_booking_status := booking_status b;
                        resp_message := "Test drive booked successfully! Confirmation will be sent to "
                                        ++ req_customer_phone req |}, kb')
  end.

(** [get_booking] (GET /api/v1/bookings/{booking_id}). *)
Definition get_booking_endpoint (a : DealershipAssistant) (bid : string)
    : http_result TestDriveBooking :=
  match find_booking bid (bookings (knowledge_base a)) with
  | Some b => HttpOk b
  | None => HttpError 404 "Booking not found"
  end.

(** [get_car] (GET /api/v1/cars/{car_id}). *)
Definition get_car_endpoint (a : DealershipAssistant) (cid : string) : http_result car :=
  match get_car_details (knowledge_base a) cid with
  | Some c => HttpOk c
  | None => HttpError 404 "Car not found"
  end.

(** The [CarDetails] response model: building it from an inventory entry
    fails validation when a field it requires is missing from the entry. *)
Record CarDetails := mk_car_details {
  cd_id : string; cd_brand : string; cd_model : string; cd_year : Z; cd_type : string;
  cd_price_range : string; cd_features : list string; cd_fuel_type : string;
  cd_availability : bool
}.

Definition to_car_details (c : car) : option CarDetails :=
  match car_id_field c, car_type c, fuel_type c, availability c with
  | Some i, Some t, Some f, Some av =>
      Some (mk_car_details i (brand c) (model c) (car_year c) t (price_range c)
              (features c) f av)
  | _, _, _, _ => None
  end.

(** The list comprehension building a [CarDetails] per car: [None] when one
    entry fails validation. *)
Fixpoint to_car_details_all (l : list car) : option (list CarDetails) :=
  match l with
  | [] => Some []
  | c :: t =>
      match to_car_details c, to_car_details_all t with
      | Some d, Some ds => Some (d :: ds)
      | _, _ => None
      end
  end.

(** Python truthiness of an optional string query parameter. *)
Definition truthy (s : option string) : bool :=
  match s with Some v => negb (String.eqb v "") | None => false end.

Definition opt_str (s : option string) : string :=
  match s with Some v => v | None => "" end.

(** [list_cars] (GET /api/v1/cars); the text of the validation error after
    the detail's prefix is not modelled. *)
Definition list_cars (a : DealershipAssistant) (ct : option string)
    : http_result (list CarDetails) :=
  let cars := if truthy ct then search_cars_by_type (knowledge_base a) (opt_str ct)
              else get_available_cars (knowledge_base a) in
  match to_car_details_all cars with
  | Some ds => HttpOk ds
  | None => HttpError 500 "Error listing cars: "
  end.

Record CarSearchRequest := mk_search_request {
  sr_car_type : option string;
  sr_brand : option string;
  sr_budget_min : option Z;
  sr_budget_max : option Z
}.

Definition truthy_num (x : option Z) : bool :=
  match x with Some v => negb (Z.eqb v 0) | None => false end.

(** [search_cars] (POST /api/v1/cars/search), budget loop included. *)
Definition search_cars (a : DealershipAssistant) (req : CarSearchRequest)
    : http_result (list CarDetails) :=
  let kb := knowledge_base a in
  let results := if truthy (sr_car_type req) then search_cars_by_type kb (opt_str (sr_car_type req))
                 else if truthy (sr_brand req) then search_cars_by_brand kb (opt_str (sr_brand req))
                 else get_available_cars kb in
  let results := if (truthy_num (sr_budget_min req) || truthy_num (sr_budget_max req))%bool
                 then fold_left (fun filtered c => (filtered ++ [c])%list) results []
                 else results in
  match to_car_details_all results with
  | Some ds => HttpOk ds
  | None => HttpError 500 "Error searching cars: "
  end.

(** *** Conversation loops *)

(** Replies to a sequence of messages handed to [process_text] in order. *)
Fixpoint process_all (o : oracle) (a : DealershipAssistant) (msgs : list string)
    : list string * DealershipAssistant :=
  match msgs with
  | [] => ([], a)
  | m :: rest =>
      let '(r, a1) := process_text o a m in
      let '(rs, a2) := process_all o a1 rest in
      (r :: rs, a2)
  end.

Definition exit_words : list string := ["bye"; "goodbye"; "exit"; "quit"].

Definition farewell : string :=
  "Thank you for visiting Premium Auto Dealership! "
  ++ "We look forward to seeing you soon. Goodbye!".

(** The exit test of [run_text_interaction]: [user_input.lower() in [...]]. *)
Definition text_exit (s : string) : bool := existsb (String.eqb (lower s)) exit_words.

(** The exit test of [run_voice_interaction]:
    [any(word in user_input.lower() for word in [...])]. *)
Definition voice_exit (s : string) : bool :=
  existsb (fun w => str_contains w (lower s)) exit_words.

(** The exit test of [run_text_interaction] for a lowering function. *)
Definition text_exit_with (str_lower : string -> string) (s : string) : bool :=
  existsb (String.eqb (str_lower s)) exit_words.

(** How the text loop ends: on an exit word, with the farewell and [break];
    or at the end of input, where every later [input()] raises [EOFError],
    which the [except Exception] clause prints as "Error: " before reading
    again, forever, without calling the assistant again. *)
Inductive loop_end := ExitWord | EndOfInput.

(** [run_text_interaction] over the lines read by [input()], for functions
    [str_strip] and [str_lower] standing for [str.strip] and [str.lower]:
    the replies printed as "[Assistant]", how the loop ends, and the
    assistant in its final state. *)
Fixpoint run_text_interaction (str_strip str_lower : string -> string) (o : oracle)
    (a : DealershipAssistant) (lines : list string)
    : list string * loop_end * DealershipAssistant :=
  match lines with
  | [] => ([], EndOfInput, a)
  | l :: rest =>
      let u := str_strip l in
      if String.eqb u "" then run_text_interaction str_strip str_lower o a rest
      else if text_exit_with str_lower u then ([farewell], ExitWord, a)
      else
        let '(r, a1) := process_text o a u in
        let '(rs, ex, a2) := run_text_interaction str_strip str_lower o a1 rest in
        (r :: rs, ex, a2)
  end.

(** [websocket_chat]: each received JSON object's ["message"] ([None] when
    the key is absent); the sent objects' [response] and [client_id]. The loop
    ends when the connection does, here with the end of the list. *)
Fixpoint websocket_chat (o : oracle) (a : DealershipAssistant) (client_id : string)
    (received : list (option string)) : list (string * string) * DealershipAssistant :=
  match received with
  | [] => ([], a)
  | m :: rest =>
      let msg := opt_str m in
      if String.eqb msg "" then websocket_chat o a client_id rest
      else
        let '(r, a1) := process_text o a msg in
        let '(rs, a2) := websocket_chat o a1 client_id rest in
        ((r, client_id) :: rs, a2)
  end.

(** ** Properties stated by the specification, as predicates *)

(** The slot a booking occupies. *)
Definition slot_of (b : TestDriveBooking) : string * string * string :=
  (car_id b, preferred_date b, preferred_time b).

(** Case-insensitive substring match of a query against a vehicle's type,
    for a lowering function. *)
Definition type_matches (str_lower : string -> string) (q : string) (c : car) : Prop :=
  exists pre suf,
    str_lower (match car_type c with Some t => t | None => "" end) = pre ++ str_lower q ++ suf.

(** A reply of [book_test_drive] announcing a stored booking. *)
Definition is_booked_reply (r : string) : bool :=
  prefixb "✓ Test drive booked successfully!" r.

(** The identifiers present in a catalogue. *)
Definition catalog_ids (l : list car) : list string :=
  flat_map (fun c => match car_id_field c with Some i => [i] | None => [] end) l.

(** Case-insensitive substring match of a query against a vehicle's brand,
    for a lowering function. *)
Definition brand_matches (str_lower : string -> string) (q : string) (c : car) : Prop :=
  exists pre suf, str_lower (brand c) = pre ++ str_lower q ++ suf.

(** A booking with its e-mail field replaced. *)
Definition with_email (b : TestDriveBooking) (e : option string) : TestDriveBooking :=
  {| booking_id := booking_id b; customer_name := customer_name b;
     customer_phone := customer_phone b; customer_email := e;
     car_model := car_model b; car_id := car_id b; preferred_date := preferred_date b;
     preferred_time := preferred_time b; test_drive_duration := test_drive_duration b;
     booking_status := booking_status b; booking_timestamp := booking_timestamp b |}.

(** Every stored booking names a car of the inventory and carries its label. *)
Definition bookings_reference_inventory (kb : KnowledgeBase) : Prop :=
  Forall (fun b => exists c, get_car_details kb (car_id b) = Some c
                             /\ car_model b = brand c ++ " " ++ model c) (bookings kb).

(** The messages the text loop hands on: the stripped, non-blank lines up
    to the first exit word, and whether an exit word was met. *)
Fixpoint text_messages (str_strip str_lower : string -> string) (lines : list string)
    : list string * bool :=
  match lines with
  | [] => ([], false)
  | l :: rest =>
      if String.eqb (str_strip l) "" then text_messages str_strip str_lower rest
      else if text_exit_with str_lower (str_strip l) then ([], true)
      else let '(ms, ex) := text_messages str_strip str_lower rest in (str_strip l :: ms, ex)
  end.

(** ** Concrete data used by the examples below *)

Definition sedan_001 : car :=
  mk_car (Some "sedan_001") "Acme" "Elegance" 2024 (Some "Sedan") "30000-35000"
    ["Lane assist"] (Some "Gasoline") (Some 5) (Some 45) (Some false).

Definition suv_001 : car :=
  mk_car (Some "suv_001") "Acme" "Explorer Pro" 2024 (Some "SUV") "40000-45000"
    [] (Some "Hybrid") (Some 7) None (Some true).

Definition kb_demo : KnowledgeBase := mk_kb (Some [sedan_001; suv_001]) [].

(** 2024-01-18T17:46:40Z, a Thursday. *)
Definition clk_demo : clock := mk_clock 1705600000000000 (mk_date 2024 1 18).

(** One millisecond later, in the same second. *)
Definition clk_demo' : clock := mk_clock 1705600000001000 (mk_date 2024 1 18).

Definition assistant_demo : DealershipAssistant := mk_assistant kb_demo [].

(** An oracle whose answer reports the length of the history it sees. *)
Definition history_length_oracle : oracle :=
  fun h _ => Answer (str_of_Z (Z.of_nat (length h))).

Definition timeout_oracle : oracle := fun _ _ => OracleFailure "Request timed out.".

(** ** Helper lemmas *)

Lemma prefixb_spec (p s : string) :
  prefixb p s = true <-> exists suf, s = p ++ suf.
Proof.
  revert s; induction p as [|c p IH]; intros s; simpl.
  - split; [intros _; exists s; reflexivity | auto].
  - destruct s as [|d s].
    + split; [discriminate | intros [suf H]; discriminate].
    + rewrite Bool.andb_true_iff, IH. split.
      * intros [Hc [suf Hs]]. apply Ascii.eqb_eq in Hc. subst. exists suf; reflexivity.
      * intros [suf H]. injection H as -> ->. split; [apply Ascii.eqb_refl | eauto].
Qed.

Lemma str_contains_spec (n h : string) :
  str_contains n h = true <-> exists pre suf, h = pre ++ n ++ suf.
Proof.
  induction h as [|c h IH]; simpl.
  - rewrite Bool.orb_false_r, prefixb_spec. split.
    + intros [suf H]. exists "", suf. exact H.
    + intros [pre [suf H]]. destruct pre; [exists suf; exact H | discriminate].
  - rewrite Bool.orb_true_iff, prefixb_spec, IH. split.
    + intros [[suf H] | [pre [suf H]]].
      * exists "", suf. exact H.
      * exists (String c pre), suf. simpl. rewrite H. reflexivity.
    + intros [pre [suf H]]. destruct pre as [|d pre].
      * left. exists suf. exact H.
      * right. injection H as -> H. exists pre, suf. exact H.
Qed.

Lemma inventory_book (kb : KnowledgeBase) (b : TestDriveBooking) :
  inventory (snd (kb_book_test_drive kb b)) = inventory kb.
Proof. reflexivity. Qed.

(** The availability check never reads the ledger. *)
Lemma check_time_availability_ledger (clk : clock) (kb kb' : KnowledgeBase) (d t : string) :
  check_time_availability clk kb d t = check_time_availability clk kb' d t.
Proof. reflexivity. Qed.

(** A booking for an existing car on an in-window date always succeeds and
    appends exactly one booking, whatever the ledger holds. *)
Lemma book_test_drive_success (clk : clock) (kb : KnowledgeBase) (c : car)
    (name phone cid d t : string) :
  get_car_details kb cid = Some c ->
  check_time_availability clk kb d t = true ->
  book_test_drive clk kb name phone cid d t =
    (booked_message (make_booking clk c name phone cid d t) phone,
     mk_kb (data_inventory kb) (bookings kb ++ [make_booking clk c name phone cid d t])%list).
Proof.
  intros Hcar Hchk. unfold book_test_drive. rewrite Hcar, Hchk. reflexivity.
Qed.

Lemma get_car_details_book (clk : clock) (kb : KnowledgeBase) (name phone cid d t cid' : string) :
  get_car_details (snd (book_test_drive clk kb name phone cid d t)) cid' = get_car_details kb cid'.
Proof.
  unfold book_test_drive.
  destruct (get_car_details kb cid); [|reflexivity].
  destruct (negb _); reflexivity.
Qed.

Lemma is_booked_reply_booked (b : TestDriveBooking) (phone : string) :
  is_booked_reply (booked_message b phone) = true.
Proof. reflexivity. Qed.

(** ** Claims *)

(** C1 (counterexample): the slot-exclusivity rule fails. With a confirmed
    booking for sedan_001 on 2024-01-20 at 10:00 stored, a second identical
    call still changes the ledger. *)
Lemma C1_second_identical_booking_stored :
  ~ (forall clk kb name phone cid d t,
       (exists b, In b (bookings kb) /\ slot_of b = (cid, d, t)
                  /\ booking_status b = "confirmed") ->
       bookings (snd (book_test_drive clk kb name phone cid d t)) = bookings kb).
Proof.
  intros H.
  set (kb1 := snd (book_test_drive clk_demo kb_demo "Alice" "555-0100" "sedan_001"
                     "2024-01-20" "10:00")).
  assert (Hin : exists b, In b (bookings kb1) /\ slot_of b = ("sedan_001", "2024-01-20", "10:00")
                          /\ booking_status b = "confirmed").
  { eexists. split; [simpl; left; reflexivity | split; reflexivity]. }
  specialize (H clk_demo kb1 "Alice" "555-0100" "sedan_001" "2024-01-20" "10:00" Hin).
  vm_compute in H. discriminate H.
Qed.

(** C1 (amended): bookTestDrive never consults the stored bookings. Two
    identical calls for an existing car on an in-window date both succeed;
    the ledger gains two confirmed bookings for the same slot. *)
Theorem C1_identical_bookings_both_stored (clk1 clk2 : clock) (kb : KnowledgeBase) (c : car)
    (name phone cid d t : string) :
  get_car_details kb cid = Some c ->
  check_time_availability clk1 kb d t = true ->
  check_time_availability clk2 kb d t = true ->
  let '(r1, kb1) := book_test_drive clk1 kb name phone cid d t in
  let '(r2, kb2) := book_test_drive clk2 kb1 name phone cid d t in
  r1 = booked_message (make_booking clk1 c name phone cid d t) phone /\
  r2 = booked_message (make_booking clk2 c name phone cid d t) phone /\
  bookings kb2 = (bookings kb ++ [make_booking clk1 c name phone cid d t;
                                  make_booking clk2 c name phone cid d t])%list /\
  slot_of (make_booking clk1 c name phone cid d t)
    = slot_of (make_booking clk2 c name phone cid d t) /\
  booking_status (make_booking clk2 c name phone cid d t) = "confirmed".
Proof.
  intros Hcar H1 H2.
  rewrite (book_test_drive_success clk1 kb c name phone cid d t Hcar H1).
  set (kb1 := mk_kb (data_inventory kb) (bookings kb ++ [make_booking clk1 c name phone cid d t])%list).
  assert (Hcar1 : get_car_details kb1 cid = Some c) by exact Hcar.
  assert (H2' : check_time_availability clk2 kb1 d t = true) by exact H2.
  rewrite (book_test_drive_success clk2 kb1 c name phone cid d t Hcar1 H2').
  simpl. repeat split. rewrite <- app_assoc. reflexivity.
Qed.

Lemma C1_identical_bookings_both_stored_witness :
  get_car_details kb_demo "sedan_001" = Some sedan_001 /\
  check_time_availability clk_demo kb_demo "2024-01-20" "10:00" = true /\
  check_time_availability clk_demo' kb_demo "2024-01-20" "10:00" = true /\
  (let '(r1, kb1) := book_test_drive clk_demo kb_demo "Alice" "555-0100" "sedan_001" "2024-01-20" "10:00" in
   let '(r2, kb2) := book_test_drive clk_demo' kb1 "Alice" "555-0100" "sedan_001" "2024-01-20" "10:00" in
   r1 = booked_message (make_booking clk_demo sedan_001 "Alice" "555-0100" "sedan_001" "2024-01-20" "10:00") "555-0100" /\
   r2 = booked_message (make_booking clk_demo' sedan_001 "Alice" "555-0100" "sedan_001" "2024-01-20" "10:00") "555-0100" /\
   bookings kb2 = (bookings kb_demo ++
                   [make_booking clk_demo sedan_001 "Alice" "555-0100" "sedan_001" "2024-01-20" "10:00";
                    make_booking clk_demo' sedan_001 "Alice" "555-0100" "sedan_001" "2024-01-20" "10:00"])%list /\
   slot_of (make_booking clk_demo sedan_001 "Alice" "555-0100" "sedan_001" "2024-01-20" "10:00")
     = slot_of (make_booking clk_demo' sedan_001 "Alice" "555-0100" "sedan_001" "2024-01-20" "10:00") /\
   booking_status (make_booking clk_demo' sedan_001 "Alice" "555-0100" "sedan_001" "2024-01-20" "10:00")
     = "confirmed").
Proof.
  split; [reflexivity|]. split; [vm_compute; reflexivity|]. split; [vm_compute; reflexivity|].
  apply (C1_identical_bookings_both_stored clk_demo clk_demo' kb_demo sedan_001);
    [reflexivity | vm_compute; reflexivity | vm_compute; reflexivity].
Defined.

(** C2 (counterexample): two booking calls for one slot, issued within the
    same second, both succeed; they do not give one success and one
    rejection. *)
Lemma C2_two_calls_two_successes :
  length (filter is_booked_reply
            (fst (book_many [clk_demo; clk_demo'] kb_demo "Alice" "555-0100" "sedan_001"
                    "2024-01-20" "10:00"))) = 2%nat.
Proof. vm_compute. reflexivity. Qed.

(** C2 (amended): a run of N booking calls for one slot of an existing car,
    each on an in-window date, gives N success replies and appends N bookings
    for that slot. *)
Theorem C2_all_calls_succeed (clks : list clock) (kb : KnowledgeBase) (c : car)
    (name phone cid d t : string) :
  get_car_details kb cid = Some c ->
  Forall (fun clk => check_time_availability clk kb d t = true) clks ->
  book_many clks kb name phone cid d t =
    (map (fun clk => booked_message (make_booking clk c name phone cid d t) phone) clks,
     mk_kb (data_inventory kb)
       (bookings kb ++ map (fun clk => make_booking clk c name phone cid d t) clks)%list).
Proof.
  revert kb. induction clks as [|clk rest IH]; intros kb Hcar Hall.
  - simpl. rewrite app_nil_r. destruct kb; reflexivity.
  - inversion Hall as [|? ? Hclk Hrest]; subst. simpl.
    rewrite (book_test_drive_success clk kb c name phone cid d t Hcar Hclk).
    rewrite IH.
    + simpl. rewrite <- app_assoc. reflexivity.
    + exact Hcar.
    + eapply Forall_impl; [|exact Hrest]. intros clk' H. exact H.
Qed.

Lemma C2_all_calls_succeed_witness :
  get_car_details kb_demo "sedan_001" = Some sedan_001 /\
  Forall (fun clk => check_time_availability clk kb_demo "2024-01-20" "10:00" = true)
    [clk_demo; clk_demo'; clk_demo] /\
  book_many [clk_demo; clk_demo'; clk_demo] kb_demo "Alice" "555-0100" "sedan_001" "2024-01-20" "10:00" =
    (map (fun clk => booked_message (make_booking clk sedan_001 "Alice" "555-0100" "sedan_001" "2024-01-20" "10:00") "555-0100")
       [clk_demo; clk_demo'; clk_demo],
     mk_kb (data_inventory kb_demo)
       (bookings kb_demo ++ map (fun clk => make_booking clk sedan_001 "Alice" "555-0100" "sedan_001" "2024-01-20" "10:00")
          [clk_demo; clk_demo'; clk_demo])%list).
Proof.
  assert (Hall : Forall (fun clk => check_time_availability clk kb_demo "2024-01-20" "10:00" = true)
                   [clk_demo; clk_demo'; clk_demo])
    by (repeat constructor; vm_compute; reflexivity).
  split; [reflexivity|]. split; [exact Hall|].
  exact (C2_all_calls_succeed [clk_demo; clk_demo'; clk_demo] kb_demo sedan_001
           "Alice" "555-0100" "sedan_001" "2024-01-20" "10:00" eq_refl Hall).
Defined.

(** C3 (counterexample): two reservations 1 ms apart, in the same second,
    are stored with the same identifier "TD-1705600000". *)
Lemma C3_same_second_same_id :
  map booking_id (bookings (snd (book_many [clk_demo; clk_demo'] kb_demo "Alice" "555-0100"
                                   "sedan_001" "2024-01-20" "10:00")))
    = ["TD-1705600000"; "TD-1705600000"] /\
  ~ NoDup (map booking_id (bookings (snd (book_many [clk_demo; clk_demo'] kb_demo "Alice" "555-0100"
                                            "sedan_001" "2024-01-20" "10:00")))).
Proof.
  assert (E : map booking_id (bookings (snd (book_many [clk_demo; clk_demo'] kb_demo "Alice" "555-0100"
                                              "sedan_001" "2024-01-20" "10:00")))
              = ["TD-1705600000"; "TD-1705600000"]) by (vm_compute; reflexivity).
  split; [exact E|]. rewrite E. intros Hnd. inversion Hnd as [|? ? Hni _]. apply Hni. left. reflexivity.
Qed.

(** C3 (amended): a successful booking stores the identifier "TD-" followed
    by the whole seconds of the clock reading, with no uniqueness fallback:
    two bookings whose clock readings fall in the same second get the same
    identifier. *)
Theorem C3_booking_id_is_seconds (clk1 clk2 : clock) (kb : KnowledgeBase) (c : car)
    (name phone cid d t : string) :
  get_car_details kb cid = Some c ->
  check_time_availability clk1 kb d t = true ->
  check_time_availability clk2 kb d t = true ->
  Z.quot (now_us clk1) 1000000 = Z.quot (now_us clk2) 1000000 ->
  map booking_id (bookings (snd (book_many [clk1; clk2] kb name phone cid d t)))
    = (map booking_id (bookings kb)
       ++ [("TD-" ++ str_of_Z (Z.quot (now_us clk1) 1000000))%string;
           ("TD-" ++ str_of_Z (Z.quot (now_us clk1) 1000000))%string])%list.
Proof.
  intros Hcar H1 H2 Hsec.
  rewrite (C2_all_calls_succeed [clk1; clk2] kb c name phone cid d t Hcar
             (Forall_cons _ H1 (Forall_cons _ H2 (Forall_nil _)))).
  simpl. rewrite map_app. simpl. unfold new_booking_id. rewrite Hsec. reflexivity.
Qed.

Lemma C3_booking_id_is_seconds_witness :
  get_car_details kb_demo "sedan_001" = Some sedan_001 /\
  check_time_availability clk_demo kb_demo "2024-01-20" "10:00" = true /\
  check_time_availability clk_demo' kb_demo "2024-01-20" "10:00" = true /\
  Z.quot (now_us clk_demo) 1000000 = Z.quot (now_us clk_demo') 1000000 /\
  map booking_id (bookings (snd (book_many [clk_demo; clk_demo'] kb_demo "Alice" "555-0100"
                                   "sedan_001" "2024-01-20" "10:00")))
    = (map booking_id (bookings kb_demo)
       ++ [("TD-" ++ str_of_Z (Z.quot (now_us clk_demo) 1000000))%string;
           ("TD-" ++ str_of_Z (Z.quot (now_us clk_demo) 1000000))%string])%list.
Proof.
  split; [reflexivity|]. split; [vm_compute; reflexivity|].
  split; [vm_compute; reflexivity|]. split; [vm_compute; reflexivity|].
  apply (C3_booking_id_is_seconds clk_demo clk_demo' kb_demo sedan_001);
    [reflexivity | vm_compute; reflexivity | vm_compute; reflexivity | vm_compute; reflexivity].
Defined.

(** C4 (counterexample): the malformed date "tomorrow" gets the ordinary
    negative reply, the same one a valid past date gets, and no
    invalid-input error. *)
Lemma C4_malformed_date_plain_negative :
  fromisoformat "tomorrow" = None /\
  check_availability clk_demo kb_demo "tomorrow" "10:00"
    = "Sorry, tomorrow at 10:00 is not available. Please choose another time." /\
  check_availability clk_demo kb_demo "2024-01-01" "10:00"
    = "Sorry, 2024-01-01 at 10:00 is not available. Please choose another time.".
Proof. vm_compute. repeat split. Qed.

(** C4 (amended): whatever parser stands for [datetime.fromisoformat] (the
    forms it accepts differ between Python versions), when it rejects the date
    string, check_time_availability returns False and check_availability
    the ordinary "not available" reply; no invalid-input error is raised. *)
Theorem C4_malformed_date_not_available (fromiso : string -> option date) (clk : clock)
    (kb : KnowledgeBase) (d t : string) :
  fromiso d = None ->
  check_time_availability_with fromiso clk kb d t = false /\
  check_availability_with fromiso clk kb d t
    = "Sorry, " ++ d ++ " at " ++ t ++ " is not available. Please choose another time.".
Proof.
  intros Hp. unfold check_availability_with, check_time_availability_with. rewrite Hp.
  split; reflexivity.
Qed.

Lemma C4_malformed_date_not_available_witness :
  fromisoformat "next Friday" = None /\
  check_time_availability_with fromisoformat clk_demo kb_demo "next Friday" "2 PM" = false /\
  check_availability_with fromisoformat clk_demo kb_demo "next Friday" "2 PM"
    = "Sorry, " ++ "next Friday" ++ " at " ++ "2 PM" ++ " is not available. Please choose another time.".
Proof.
  split; [vm_compute; reflexivity|].
  apply (C4_malformed_date_not_available fromisoformat). vm_compute. reflexivity.
Defined.

(** C5: whatever parser stands for [datetime.fromisoformat], for a date
    string it parses the availability check is false before today and more
    than 30 days after today, and true in between, whatever the ledger
    holds. *)
Theorem C5_thirty_day_window (fromiso : string -> option date) (clk : clock)
    (kb : KnowledgeBase) (d t : string) (dt : date) :
  fromiso d = Some dt ->
  (toordinal dt < toordinal (today clk) -> check_time_availability_with fromiso clk kb d t = false) /\
  (toordinal dt - toordinal (today clk) > 30 -> check_time_availability_with fromiso clk kb d t = false) /\
  (toordinal (today clk) <= toordinal dt <= toordinal (today clk) + 30 ->
     forall kb', check_time_availability_with fromiso clk kb' d t = true).
Proof.
  intros Hp. unfold check_time_availability_with. rewrite Hp. split; [|split].
  - intros Hlt. apply Z.ltb_lt in Hlt. rewrite Hlt. reflexivity.
  - intros Hgt. destruct (toordinal dt <? toordinal (today clk)); [reflexivity|].
    replace (toordinal dt - toordinal (today clk) >? 30) with true; [reflexivity|].
    symmetry. apply Z.gtb_lt. lia.
  - intros [Hlo Hhi] kb'.
    replace (toordinal dt <? toordinal (today clk)) with false
      by (symmetry; apply Z.ltb_ge; lia).
    replace (toordinal dt - toordinal (today clk) >? 30) with false
      by (symmetry; rewrite Z.gtb_ltb; apply Z.ltb_ge; lia).
    reflexivity.
Qed.

Lemma C5_thirty_day_window_witness :
  fromisoformat "2024-02-20T10:00" = Some (mk_date 2024 2 20) /\
  check_time_availability_with fromisoformat clk_demo kb_demo "2024-02-20T10:00" "10:00" = false /\
  check_time_availability_with fromisoformat clk_demo kb_demo "2024-02-17" "10:00" = true.
Proof.
  assert (Hp : fromisoformat "2024-02-20T10:00" = Some (mk_date 2024 2 20))
    by (vm_compute; reflexivity).
  assert (Hq : fromisoformat "2024-02-17" = Some (mk_date 2024 2 17))
    by (vm_compute; reflexivity).
  split; [exact Hp|]. split.
  - apply (proj1 (proj2 (C5_thirty_day_window fromisoformat clk_demo kb_demo
                           "2024-02-20T10:00" "10:00" _ Hp))).
    vm_compute. reflexivity.
  - apply (proj2 (proj2 (C5_thirty_day_window fromisoformat clk_demo kb_demo
                           "2024-02-17" "10:00" _ Hq))).
    vm_compute. split; discriminate.
Defined.

(** C6: the chat endpoint documents [session_id] as the "Session ID for
    context" but only echoes it: the reply to session "B" changes when a
    message of session "A" is served first, and the two runs leave different
    conversation memories; all sessions share one memory. *)
Lemma C6_sessions_interfere :
  replies_for "B" (fst (chat_run history_length_oracle assistant_demo
                          [mk_chat_request "Hi, I'm looking for a sedan" (Some "A");
                           mk_chat_request "Hello" (Some "B")])) = ["2"] /\
  replies_for "B" (fst (chat_run history_length_oracle assistant_demo
                          [mk_chat_request "Hello" (Some "B")])) = ["0"] /\
  memory (snd (chat_run history_length_oracle assistant_demo
                 [mk_chat_request "Hi, I'm looking for a sedan" (Some "A");
                  mk_chat_request "Hello" (Some "B")]))
    <> memory (snd (chat_run history_length_oracle assistant_demo
                      [mk_chat_request "Hello" (Some "B")])).
Proof. vm_compute. split; [reflexivity|]. split; [reflexivity|]. discriminate. Qed.

Lemma filter_nil_iff {A : Type} (p : A -> bool) (l : list A) :
  filter p l = [] <-> forall x, In x l -> p x = false.
Proof.
  induction l as [|x l IH]; simpl.
  - split; [intros _ y [] | reflexivity].
  - destruct (p x) eqn:Hx.
    + split; [discriminate | intros H; rewrite (H x (or_introl eq_refl)) in Hx; discriminate].
    + rewrite IH. split.
      * intros H y [<- | Hy]; [exact Hx | exact (H y Hy)].
      * intros H y Hy. exact (H y (or_intror Hy)).
Qed.

(** C7: for any lowering function standing for Python's [str.lower], search
    by type keeps, in catalogue order, exactly the vehicles whose lowered type
    contains the lowered query; it is empty exactly when no vehicle matches,
    and never fails. *)
Theorem C7_search_by_type_spec (str_lower : string -> string) (kb : KnowledgeBase) (q : string) :
  (exists p : car -> bool,
     (forall c, p c = true <-> type_matches str_lower q c) /\
     search_cars_by_type_with str_lower kb q = filter p (inventory kb)) /\
  (forall c, In c (search_cars_by_type_with str_lower kb q)
             <-> In c (inventory kb) /\ type_matches str_lower q c) /\
  (search_cars_by_type_with str_lower kb q = []
     <-> forall c, In c (inventory kb) -> ~ type_matches str_lower q c).
Proof.
  set (p := fun c => str_contains (str_lower q)
                       (str_lower (match car_type c with Some t => t | None => "" end))).
  assert (Hp : forall c, p c = true <-> type_matches str_lower q c)
    by (intros c; unfold p, type_matches; apply str_contains_spec).
  assert (Hs : search_cars_by_type_with str_lower kb q = filter p (inventory kb)) by reflexivity.
  split; [exists p; split; assumption|]. split.
  - intros c. rewrite Hs, filter_In, Hp. reflexivity.
  - rewrite Hs, filter_nil_iff. split.
    + intros H c Hc Hm. apply Hp in Hm. rewrite (H c Hc) in Hm. discriminate.
    + intros H c Hc. destruct (p c) eqn:E; [|reflexivity].
      exfalso. apply (H c Hc). apply Hp. exact E.
Qed.

Lemma in_catalog_ids (l : list car) (v : car) (i : string) :
  In v l -> car_id_field v = Some i -> In i (catalog_ids l).
Proof.
  intros Hv Hi. unfold catalog_ids. apply in_flat_map. exists v. rewrite Hi. simpl. auto.
Qed.

(** C8: with identifiers unique in the catalogue, looking a vehicle up by its
    identifier returns that vehicle. *)
Theorem C8_lookup_roundtrip (kb : KnowledgeBase) (v : car) (i : string) :
  NoDup (catalog_ids (inventory kb)) ->
  In v (inventory kb) ->
  car_id_field v = Some i ->
  get_car_details kb i = Some v.
Proof.
  unfold get_car_details. generalize (inventory kb) as l.
  induction l as [|c l IH]; intros Hnd Hv Hi; [destruct Hv|].
  simpl. unfold id_matches.
  destruct Hv as [-> | Hv].
  - rewrite Hi, String.eqb_refl. reflexivity.
  - destruct (car_id_field c) as [j|] eqn:Hj.
    + destruct (String.eqb_spec j i) as [-> | Hne].
      * exfalso. unfold catalog_ids in Hnd. simpl in Hnd. rewrite Hj in Hnd. simpl in Hnd.
        inversion Hnd as [|? ? Hni _]. apply Hni. exact (in_catalog_ids l v i Hv Hi).
      * apply IH; [|exact Hv|exact Hi].
        unfold catalog_ids in Hnd. simpl in Hnd. rewrite Hj in Hnd. simpl in Hnd.
        inversion Hnd; assumption.
    + apply IH; [|exact Hv|exact Hi].
      unfold catalog_ids in Hnd. simpl in Hnd. rewrite Hj in Hnd. exact Hnd.
Qed.

Lemma C8_lookup_roundtrip_witness :
  NoDup (catalog_ids (inventory kb_demo)) /\ In suv_001 (inventory kb_demo) /\
  car_id_field suv_001 = Some "suv_001" /\ get_car_details kb_demo "suv_001" = Some suv_001.
Proof.
  assert (Hnd : NoDup (catalog_ids (inventory kb_demo))).
  { vm_compute. constructor; [|constructor; [intros []|constructor]].
    intros [H|[]]. discriminate H. }
  assert (Hin : In suv_001 (inventory kb_demo)) by (right; left; reflexivity).
  split; [exact Hnd|]. split; [exact Hin|]. split; [reflexivity|].
  exact (C8_lookup_roundtrip kb_demo suv_001 "suv_001" Hnd Hin eq_refl).
Defined.

(** C9: a failure of the decision process is turned into an apology reply
    and leaves the assistant unchanged; the chat endpoint answers with it. *)
Theorem C9_oracle_failure_apology (o : oracle) (a : DealershipAssistant)
    (req : ChatRequest) (e : string) :
  o (memory a) (message req) = OracleFailure e ->
  process_text o a (message req) = ("Sorry, I encountered an error: " ++ e, a) /\
  chat o a req = (mk_chat_response ("Sorry, I encountered an error: " ++ e) (session_id req), a).
Proof.
  intros Hf.
  assert (Hp : process_text o a (message req) = ("Sorry, I encountered an error: " ++ e, a)).
  { unfold process_text, process_input, agent_invoke. rewrite Hf. destruct a; reflexivity. }
  split; [exact Hp|]. unfold chat. rewrite Hp. reflexivity.
Qed.

Lemma C9_oracle_failure_apology_witness :
  timeout_oracle (memory assistant_demo) "I'd like to book a test drive" = OracleFailure "Request timed out." /\
  chat timeout_oracle assistant_demo (mk_chat_request "I'd like to book a test drive" (Some "A"))
    = (mk_chat_response ("Sorry, I encountered an error: " ++ "Request timed out.") (Some "A"),
       assistant_demo).
Proof.
  split; [reflexivity|].
  apply (C9_oracle_failure_apology timeout_oracle assistant_demo
           (mk_chat_request "I'd like to book a test drive" (Some "A")) "Request timed out.").
  reflexivity.
Defined.

(** C10: a vehicle whose availability flag is false can be booked: the
    booking path checks only that the car exists and the date window. *)
Theorem C10_unavailable_car_bookable (clk : clock) (kb : KnowledgeBase) (c : car)
    (name phone cid d t : string) :
  get_car_details kb cid = Some c ->
  availability c = Some false ->
  check_time_availability clk kb d t = true ->
  is_booked_reply (fst (book_test_drive clk kb name phone cid d t)) = true /\
  bookings (snd (book_test_drive clk kb name phone cid d t))
    = (bookings kb ++ [make_booking clk c name phone cid d t])%list /\
  booking_status (make_booking clk c name phone cid d t) = "confirmed".
Proof.
  intros Hcar _ Hchk.
  rewrite (book_test_drive_success clk kb c name phone cid d t Hcar Hchk).
  simpl. repeat split.
Qed.

Lemma C10_unavailable_car_bookable_witness :
  get_car_details kb_demo "sedan_001" = Some sedan_001 /\
  availability sedan_001 = Some false /\
  check_time_availability clk_demo kb_demo "2024-01-20" "10:00" = true /\
  is_booked_reply (fst (book_test_drive clk_demo kb_demo "Alice" "555-0100" "sedan_001"
                          "2024-01-20" "10:00")) = true.
Proof.
  assert (Hchk : check_time_availability clk_demo kb_demo "2024-01-20" "10:00" = true)
    by (vm_compute; reflexivity).
  split; [reflexivity|]. split; [reflexivity|]. split; [exact Hchk|].
  exact (proj1 (C10_unavailable_car_bookable clk_demo kb_demo sedan_001 "Alice" "555-0100"
                  "sedan_001" "2024-01-20" "10:00" eq_refl eq_refl Hchk)).
Defined.

(** ** Further properties of the code *)

Lemma lower_ascii_idem (c : ascii) : lower_ascii (lower_ascii c) = lower_ascii c.
Proof.
  unfold lower_ascii.
  destruct (Nat.leb 65 (nat_of_ascii c) && Nat.leb (nat_of_ascii c) 90)%bool eqn:E.
  - apply andb_true_iff in E as [E1 E2]. apply Nat.leb_le in E1, E2.
    rewrite Ascii.nat_ascii_embedding by lia.
    replace (Nat.leb 65 (nat_of_ascii c + 32) && Nat.leb (nat_of_ascii c + 32) 90)%bool
      with false; [reflexivity|].
    symmetry. apply andb_false_iff. right. apply Nat.leb_gt. lia.
  - rewrite E. reflexivity.
Qed.

Lemma lower_idem (s : string) : lower (lower s) = lower s.
Proof. induction s as [|c s IH]; simpl; [reflexivity|]. rewrite lower_ascii_idem, IH. reflexivity. Qed.

Lemma lower_append (s t : string) : lower (s ++ t) = lower s ++ lower t.
Proof. induction s as [|c s IH]; simpl; [reflexivity|]. rewrite IH. reflexivity. Qed.

Lemma str_contains_empty (h : string) : str_contains "" h = true.
Proof. destruct h; reflexivity. Qed.

Lemma filter_all_true {A : Type} (p : A -> bool) (l : list A) :
  (forall x, In x l -> p x = true) -> filter p l = l.
Proof.
  induction l as [|x l IH]; intros H; simpl; [reflexivity|].
  rewrite (H x (or_introl eq_refl)), IH; [reflexivity|].
  intros y Hy. exact (H y (or_intror Hy)).
Qed.

(** X1: for any lowering function standing for Python's [str.lower], search
    by brand keeps, in catalogue order, exactly the vehicles whose lowered
    brand contains the lowered query; it is empty exactly when no brand
    matches. *)
Theorem search_cars_by_brand_spec (str_lower : string -> string) (kb : KnowledgeBase) (q : string) :
  (exists p : car -> bool,
     (forall c, p c = true <-> brand_matches str_lower q c) /\
     search_cars_by_brand_with str_lower kb q = filter p (inventory kb)) /\
  (forall c, In c (search_cars_by_brand_with str_lower kb q)
             <-> In c (inventory kb) /\ brand_matches str_lower q c) /\
  (search_cars_by_brand_with str_lower kb q = []
     <-> forall c, In c (inventory kb) -> ~ brand_matches str_lower q c).
Proof.
  set (p := fun c => str_contains (str_lower q) (str_lower (brand c))).
  assert (Hp : forall c, p c = true <-> brand_matches str_lower q c)
    by (intros c; unfold p, brand_matches; apply str_contains_spec).
  assert (Hs : search_cars_by_brand_with str_lower kb q = filter p (inventory kb)) by reflexivity.
  split; [exists p; split; assumption|]. split.
  - intros c. rewrite Hs, filter_In, Hp. reflexivity.
  - rewrite Hs, filter_nil_iff. split.
    + intros H c Hc Hm. apply Hp in Hm. rewrite (H c Hc) in Hm. discriminate.
    + intros H c Hc. destruct (p c) eqn:E; [|reflexivity].
      exfalso. apply (H c Hc). apply Hp. exact E.
Qed.

(** X2: when lowering the query once more does not change it (as for
    [str.lower] on a lower-case string), type and brand searches give the
    same result for the query and its lowered form; when the empty string
    lowers to itself, the empty query returns the whole catalogue. *)
Theorem search_case_insensitive (str_lower : string -> string) (kb : KnowledgeBase) (q : string) :
  str_lower (str_lower q) = str_lower q ->
  str_lower "" = "" ->
  search_cars_by_type_with str_lower kb q = search_cars_by_type_with str_lower kb (str_lower q) /\
  search_cars_by_brand_with str_lower kb q = search_cars_by_brand_with str_lower kb (str_lower q) /\
  search_cars_by_type_with str_lower kb "" = inventory kb /\
  search_cars_by_brand_with str_lower kb "" = inventory kb.
Proof.
  intros Hidem Hempty. unfold search_cars_by_type_with, search_cars_by_brand_with.
  rewrite Hidem, Hempty. split; [reflexivity|]. split; [reflexivity|].
  split; apply filter_all_true; intros c _; apply str_contains_empty.
Qed.

Lemma search_case_insensitive_witness :
  lower (lower "SUV") = lower "SUV" /\ lower "" = "" /\
  search_cars_by_type_with lower kb_demo "SUV" = search_cars_by_type_with lower kb_demo "suv" /\
  search_cars_by_brand_with lower kb_demo "" = inventory kb_demo.
Proof.
  split; [reflexivity|]. split; [reflexivity|].
  destruct (search_case_insensitive lower kb_demo "SUV" eq_refl eq_refl) as [H1 [_ [_ H4]]].
  split; [exact H1 | exact H4].
Defined.

(** The available cars are the inventory entries whose availability flag is
    true; an entry without the flag is not available. *)
Theorem get_available_cars_spec (kb : KnowledgeBase) (c : car) :
  In c (get_available_cars kb) <-> In c (inventory kb) /\ availability c = Some true.
Proof.
  unfold get_available_cars. rewrite filter_In.
  destruct (availability c) as [[|]|]; split; intros [H1 H2]; try discriminate; auto.
Qed.

(** bookTestDrive's two rejections leave the knowledge base unchanged. *)
Theorem book_test_drive_rejections (clk : clock) (kb : KnowledgeBase)
    (name phone cid d t : string) :
  (get_car_details kb cid = None ->
   book_test_drive clk kb name phone cid d t
     = ("Cannot book: Car with ID '" ++ cid ++ "' not found", kb)) /\
  (forall c, get_car_details kb cid = Some c ->
   check_time_availability clk kb d t = false ->
   book_test_drive clk kb name phone cid d t
     = ("Cannot book: " ++ d ++ " at " ++ t ++ " is not available", kb)).
Proof.
  unfold book_test_drive. split.
  - intros H. rewrite H. reflexivity.
  - intros c H Hc. rewrite H, Hc. reflexivity.
Qed.

(** X5: the time string is never validated: bookTestDrive behaves the same
    for any two time strings, e.g. "25:99" and "10:00" (same success, same
    ledger growth). *)
Theorem book_test_drive_time_unchecked (clk : clock) (kb : KnowledgeBase)
    (name phone cid d t1 t2 : string) :
  is_booked_reply (fst (book_test_drive clk kb name phone cid d t1))
    = is_booked_reply (fst (book_test_drive clk kb name phone cid d t2)) /\
  length (bookings (snd (book_test_drive clk kb name phone cid d t1)))
    = length (bookings (snd (book_test_drive clk kb name phone cid d t2))).
Proof.
  assert (E : check_time_availability clk kb d t1 = check_time_availability clk kb d t2)
    by reflexivity.
  unfold book_test_drive. destruct (get_car_details kb cid) as [c|]; [|split; reflexivity].
  rewrite E. destruct (check_time_availability clk kb d t2); simpl.
  - split; [reflexivity|]. rewrite !length_app. reflexivity.
  - split; reflexivity.
Qed.

Lemma inventory_append (kb : KnowledgeBase) (l : list TestDriveBooking) :
  inventory (mk_kb (data_inventory kb) l) = inventory kb.
Proof. reflexivity. Qed.

Lemma reference_inventory_append (kb : KnowledgeBase) (b : TestDriveBooking) (c : car) :
  bookings_reference_inventory kb ->
  get_car_details kb (car_id b) = Some c ->
  car_model b = brand c ++ " " ++ model c ->
  bookings_reference_inventory (mk_kb (data_inventory kb) (bookings kb ++ [b])%list).
Proof.
  intros Hinv Hc Hm. unfold bookings_reference_inventory in *. simpl.
  apply Forall_app. split; [exact Hinv|]. constructor; [|constructor].
  exists c. split; assumption.
Qed.

(** X6: both booking paths that check the car (the chat tool and the REST
    endpoint) keep every stored booking pointing at an inventory car whose
    "brand model" label it carries. *)
Theorem booking_paths_keep_references (clk : clock) (kb : KnowledgeBase)
    (name phone cid d t : string) (req : TestDriveBookingRequest) :
  bookings_reference_inventory kb ->
  bookings_reference_inventory (snd (book_test_drive clk kb name phone cid d t)) /\
  bookings_reference_inventory (snd (create_booking clk kb req)).
Proof.
  intros Hinv. split.
  - destruct (get_car_details kb cid) as [c|] eqn:Hc.
    + destruct (check_time_availability clk kb d t) eqn:Hchk.
      * rewrite (book_test_drive_success clk kb c name phone cid d t Hc Hchk). simpl.
        apply (reference_inventory_append kb _ c Hinv); [exact Hc | reflexivity].
      * rewrite (proj2 (book_test_drive_rejections clk kb name phone cid d t) c Hc Hchk).
        exact Hinv.
    + rewrite (proj1 (book_test_drive_rejections clk kb name phone cid d t) Hc). exact Hinv.
  - unfold create_booking.
    destruct (get_car_details kb (req_car_id req)) as [c|] eqn:Hc; [|exact Hinv].
    destruct (check_time_availability clk kb (req_preferred_date req) (req_preferred_time req));
      simpl; [|exact Hinv].
    apply (reference_inventory_append kb _ c Hinv); [exact Hc | reflexivity].
Qed.

Lemma booking_paths_keep_references_witness :
  bookings_reference_inventory kb_demo /\
  bookings_reference_inventory
    (snd (book_test_drive clk_demo kb_demo "Alice" "555-0100" "suv_001" "2024-01-25" "09:30")).
Proof.
  assert (H : bookings_reference_inventory kb_demo) by constructor.
  split; [exact H|].
  exact (proj1 (booking_paths_keep_references clk_demo kb_demo "Alice" "555-0100" "suv_001"
                  "2024-01-25" "09:30"
                  (mk_booking_request "Bob" "555-0199" None "suv_001" "2024-01-26" "11:00") H)).
Defined.

(** X7: BookingAgent.confirm_booking breaks the invariant the two checked
    booking paths keep (X6): given the five required keys, no "duration"
    key and a car identifier absent from the inventory, it stores a confirmed
    booking, and afterwards some stored booking names no inventory car. *)
Theorem confirm_booking_breaks_references (coerce_int : string -> option Z) (clk : clock)
    (kb : KnowledgeBase) (details : str_dict) :
  forallb (fun f => match dict_get f details with Some _ => true | None => false end)
    required_fields = true ->
  dict_get "duration" details = None ->
  get_car_details kb (dict_get_default "car_id" details "") = None ->
  exists kb', confirm_booking coerce_int clk kb details = Some (true, kb') /\
              length (bookings kb') = S (length (bookings kb)) /\
              ~ bookings_reference_inventory kb'.
Proof.
  intros Hreq Hdur Hnone. unfold confirm_booking. rewrite Hreq, Hdur. simpl.
  eexists. split; [reflexivity|]. split; [cbn [bookings]; rewrite length_app; simpl; lia|].
  unfold bookings_reference_inventory. simpl. intros Hall.
  apply Forall_app in Hall as [_ Hlast]. inversion Hlast as [|? ? [c [Hc _]] _]; subst.
  simpl in Hc. unfold get_car_details, inventory in Hc. simpl in Hc.
  unfold get_car_details, inventory in Hnone. rewrite Hnone in Hc. discriminate.
Qed.

Lemma confirm_booking_breaks_references_witness :
  bookings_reference_inventory kb_demo /\
  get_car_details kb_demo "no_such_car" = None /\
  exists kb', confirm_booking (fun _ => None) clk_demo kb_demo
      [("customer_name", "Alice"); ("customer_phone", "555-0100"); ("car_id", "no_such_car");
       ("preferred_date", "1999-01-01"); ("preferred_time", "10:00")] = Some (true, kb') /\
    length (bookings kb') = S (length (bookings kb_demo)) /\
    ~ bookings_reference_inventory kb'.
Proof.
  split; [constructor|]. split; [reflexivity|].
  exact (confirm_booking_breaks_references (fun _ => None) clk_demo kb_demo
           [("customer_name", "Alice"); ("customer_phone", "555-0100"); ("car_id", "no_such_car");
            ("preferred_date", "1999-01-01"); ("preferred_time", "10:00")] eq_refl eq_refl eq_refl).
Defined.

Lemma find_booking_app (bid : string) (l : list TestDriveBooking) (b : TestDriveBooking) :
  find_booking bid (l ++ [b])%list =
    match find_booking bid l with
    | Some b0 => Some b0
    | None => if String.eqb (booking_id b) bid then Some b else None
    end.
Proof.
  induction l as [|x l IH]; simpl; [reflexivity|].
  destruct (String.eqb (booking_id x) bid); [reflexivity | exact IH].
Qed.

(** X9: after a successful bookTestDrive, looking its identifier up returns
    the new booking, unless a booking stored earlier already has that
    identifier (same second): then the earlier booking is returned. *)
Theorem booking_lookup_after_book (clk : clock) (kb : KnowledgeBase) (c : car)
    (name phone cid d t : string) :
  get_car_details kb cid = Some c ->
  check_time_availability clk kb d t = true ->
  get_booking_confirmation (snd (book_test_drive clk kb name phone cid d t)) (new_booking_id clk)
    = match get_booking_confirmation kb (new_booking_id clk) with
      | Some b0 => Some b0
      | None => Some (make_booking clk c name phone cid d t)
      end.
Proof.
  intros Hc Hchk. rewrite (book_test_drive_success clk kb c name phone cid d t Hc Hchk).
  unfold get_booking_confirmation. simpl. rewrite find_booking_app. simpl.
  rewrite String.eqb_refl. reflexivity.
Qed.

Lemma booking_lookup_after_book_witness :
  get_car_details kb_demo "sedan_001" = Some sedan_001 /\
  check_time_availability clk_demo kb_demo "2024-01-20" "10:00" = true /\
  get_booking_confirmation
    (snd (book_test_drive clk_demo kb_demo "Alice" "555-0100" "sedan_001" "2024-01-20" "10:00"))
    (new_booking_id clk_demo)
    = Some (make_booking clk_demo sedan_001 "Alice" "555-0100" "sedan_001" "2024-01-20" "10:00").
Proof.
  assert (Hchk : check_time_availability clk_demo kb_demo "2024-01-20" "10:00" = true)
    by (vm_compute; reflexivity).
  split; [reflexivity|]. split; [exact Hchk|].
  exact (booking_lookup_after_book clk_demo kb_demo sedan_001 "Alice" "555-0100" "sedan_001"
           "2024-01-20" "10:00" eq_refl Hchk).
Defined.

Lemma find_booking_some (bid : string) (l : list TestDriveBooking) (b : TestDriveBooking) :
  find_booking bid l = Some b -> In b l /\ booking_id b = bid.
Proof.
  induction l as [|x l IH]; simpl; [discriminate|].
  destruct (String.eqb_spec (booking_id x) bid) as [E|E].
  - intros H. injection H as <-. auto.
  - intros H. destruct (IH H). auto.
Qed.

Lemma find_booking_none (bid : string) (l : list TestDriveBooking) :
  find_booking bid l = None <-> Forall (fun b => booking_id b <> bid) l.
Proof.
  induction l as [|x l IH]; simpl; [split; auto|].
  destruct (String.eqb_spec (booking_id x) bid) as [E|E].
  - split; [discriminate | intros H; inversion H; contradiction].
  - rewrite IH. split; [intros H; constructor; auto | intros H; inversion H; auto].
Qed.

(** X10: GET /api/v1/bookings/{id} answers 404 exactly when no stored
    booking has that identifier, and otherwise returns a stored booking with
    that identifier. *)
Theorem get_booking_endpoint_spec (a : DealershipAssistant) (bid : string) :
  (get_booking_endpoint a bid = HttpError 404 "Booking not found"
     <-> Forall (fun b => booking_id b <> bid) (bookings (knowledge_base a))) /\
  (forall b, get_booking_endpoint a bid = HttpOk b ->
     In b (bookings (knowledge_base a)) /\ booking_id b = bid).
Proof.
  unfold get_booking_endpoint. split.
  - rewrite <- find_booking_none.
    destruct (find_booking bid (bookings (knowledge_base a))); split; congruence.
  - intros b. destruct (find_booking bid (bookings (knowledge_base a))) eqn:E; [|discriminate].
    intros H. injection H as <-. apply find_booking_some. exact E.
Qed.

(** X12: a successful POST /api/v1/bookings stores the booking the chat tool
    would store for the same request, with the request's e-mail added, and
    answers with its identifier, label, slot and the status "confirmed". *)
Theorem create_booking_matches_tool (clk : clock) (kb : KnowledgeBase) (c : car)
    (req : TestDriveBookingRequest) :
  get_car_details kb (req_car_id req) = Some c ->
  check_time_availability clk kb (req_preferred_date req) (req_preferred_time req) = true ->
  let b := make_booking clk c (req_customer_name req) (req_customer_phone req)
             (req_car_id req) (req_preferred_date req) (req_preferred_time req) in
  create_booking clk kb req =
    (HttpOk {| resp_booking_id := booking_id b;
               resp_customer_name := req_customer_name req;
               resp_car_model := car_model b;
               resp_preferred_date := req_preferred_date req;
               resp_preferred_time := req_preferred_time req;
               resp_booking_status := "confirmed";
               resp_message := "Test drive booked successfully! Confirmation will be sent to "
                               ++ req_customer_phone req |},
     mk_kb (data_inventory kb) (bookings kb ++ [with_email b (req_customer_email req)])%list) /\
  bookings (snd (book_test_drive clk kb (req_customer_name req) (req_customer_phone req)
                   (req_car_id req) (req_preferred_date req) (req_preferred_time req)))
    = (bookings kb ++ [b])%list.
Proof.
  intros Hc Hchk b. split.
  - unfold create_booking. rewrite Hc, Hchk. reflexivity.
  - rewrite (book_test_drive_success clk kb c _ _ _ _ _ Hc Hchk). reflexivity.
Qed.

Lemma create_booking_matches_tool_witness :
  get_car_details kb_demo "suv_001" = Some suv_001 /\
  check_time_availability clk_demo kb_demo "2024-01-25" "09:30" = true /\
  fst (create_booking clk_demo kb_demo
         (mk_booking_request "Bob" "555-0199" (Some "bob@example.com") "suv_001" "2024-01-25" "09:30"))
    = HttpOk {| resp_booking_id := "TD-1705600000";
                resp_customer_name := "Bob";
                resp_car_model := "Acme Explorer Pro";
                resp_preferred_date := "2024-01-25";
                resp_preferred_time := "09:30";
                resp_booking_status := "confirmed";
                resp_message := "Test drive booked successfully! Confirmation will be sent to 555-0199" |}.
Proof.
  assert (Hchk : check_time_availability clk_demo kb_demo "2024-01-25" "09:30" = true)
    by (vm_compute; reflexivity).
  split; [reflexivity|]. split; [exact Hchk|].
  rewrite (proj1 (create_booking_matches_tool clk_demo kb_demo suv_001
                    (mk_booking_request "Bob" "555-0199" (Some "bob@example.com") "suv_001"
                       "2024-01-25" "09:30") eq_refl Hchk)).
  vm_compute. reflexivity.
Defined.

Lemma find_car_none (cid : string) (l : list car) :
  find_car cid l = None <-> forall c, In c l -> car_id_field c <> Some cid.
Proof.
  induction l as [|x l IH]; simpl.
  - split; [intros _ c [] | reflexivity].
  - unfold id_matches. destruct (car_id_field x) as [i|] eqn:Ex.
    + destruct (String.eqb_spec i cid) as [->|E].
      * split; [discriminate|]. intros H. exfalso. exact (H x (or_introl eq_refl) Ex).
      * rewrite IH. split.
        -- intros H c [<- | Hc]; [rewrite Ex; congruence | exact (H c Hc)].
        -- intros H c Hc. exact (H c (or_intror Hc)).
    + rewrite IH. split.
      * intros H c [<- | Hc]; [rewrite Ex; discriminate | exact (H c Hc)].
      * intros H c Hc. exact (H c (or_intror Hc)).
Qed.

(** X13: GET /api/v1/cars/{car_id} answers 404 exactly when no inventory
    entry has that identifier, and otherwise returns an entry with it. *)
Theorem get_car_endpoint_spec (a : DealershipAssistant) (cid : string) :
  (get_car_endpoint a cid = HttpError 404 "Car not found"
     <-> forall c, In c (inventory (knowledge_base a)) -> car_id_field c <> Some cid) /\
  (forall c, get_car_endpoint a cid = HttpOk c ->
     In c (inventory (knowledge_base a)) /\ car_id_field c = Some cid).
Proof.
  unfold get_car_endpoint, get_car_details. split.
  - rewrite <- find_car_none. destruct (find_car cid _); split; congruence.
  - intros c. generalize (inventory (knowledge_base a)) as l.
    induction l as [|x l IH]; simpl; [discriminate|].
    unfold id_matches. destruct (car_id_field x) as [i|] eqn:Ex.
    + destruct (String.eqb_spec i cid) as [->|E].
      * intros H. injection H as <-. auto.
      * intros H. destruct (IH H). auto.
    + intros H. destruct (IH H). auto.
Qed.

Lemma in_firstn_in {A : Type} (n : nat) (l : list A) (x : A) :
  In x (firstn n l) -> In x l.
Proof. intros H. rewrite <- (firstn_skipn n l). apply in_or_app. left. exact H. Qed.

(** X14: KnowledgeAgent.get_car_recommendations returns at most three
    inventory cars, each either available or, when lowering the preference's
    "type" entry once more does not change it, of a type matching it. *)
Theorem recommendations_spec (str_lower : string -> string) (kb : KnowledgeBase) (prefs : str_dict) :
  str_lower (str_lower (dict_get_default "type" prefs "")) = str_lower (dict_get_default "type" prefs "") ->
  (length (get_car_recommendations str_lower kb prefs) <= 3)%nat /\
  forall c, In c (get_car_recommendations str_lower kb prefs) ->
    In c (inventory kb) /\
    (availability c = Some true \/ type_matches str_lower (dict_get_default "type" prefs "") c).
Proof.
  intros Hidem. unfold get_car_recommendations. split.
  - apply firstn_le_length.
  - intros c Hc. apply in_firstn_in in Hc.
    destruct (String.eqb _ "").
    + apply get_available_cars_spec in Hc. destruct Hc. auto.
    + unfold search_cars_by_type_with in Hc. apply filter_In in Hc as [Hin Hm].
      split; [exact Hin|]. right. unfold type_matches.
      apply str_contains_spec. rewrite Hidem in Hm. exact Hm.
Qed.

Lemma recommendations_spec_witness :
  lower (lower "suv") = lower "suv" /\
  get_car_recommendations lower kb_demo [("type", "suv")] = [suv_001] /\
  (length (get_car_recommendations lower kb_demo [("type", "suv")]) <= 3)%nat.
Proof.
  split; [reflexivity|]. split; [vm_compute; reflexivity|].
  exact (proj1 (recommendations_spec lower kb_demo [("type", "suv")] eq_refl)).
Defined.

Lemma fold_left_snoc {A : Type} (l acc : list A) :
  fold_left (fun filtered c => (filtered ++ [c])%list) l acc = (acc ++ l)%list.
Proof.
  revert acc. induction l as [|x l IH]; intros acc; simpl.
  - rewrite app_nil_r. reflexivity.
  - rewrite IH, <- app_assoc. reflexivity.
Qed.

(** X15: POST /api/v1/cars/search ignores the budget bounds, and a non-empty
    type takes precedence over the brand. *)
Theorem search_cars_budget_ignored (a : DealershipAssistant) (ct br : option string)
    (bmin bmax : option Z) :
  search_cars a (mk_search_request ct br bmin bmax) = search_cars a (mk_search_request ct br None None) /\
  (truthy ct = true ->
   search_cars a (mk_search_request ct br bmin bmax) = search_cars a (mk_search_request ct None None None)).
Proof.
  assert (E : search_cars a (mk_search_request ct br bmin bmax)
              = search_cars a (mk_search_request ct br None None)).
  { unfold search_cars. simpl.
    destruct (truthy_num bmin || truthy_num bmax)%bool; [|reflexivity].
    rewrite fold_left_snoc. reflexivity. }
  split; [exact E|]. intros Ht. rewrite E. unfold search_cars. simpl. rewrite Ht. reflexivity.
Qed.

Lemma search_cars_budget_ignored_witness :
  truthy (Some "SUV") = true /\
  search_cars assistant_demo (mk_search_request (Some "SUV") (Some "Acme") (Some 20000) (Some 30000))
    = search_cars assistant_demo (mk_search_request (Some "SUV") None None None).
Proof.
  split; [reflexivity|].
  exact (proj2 (search_cars_budget_ignored assistant_demo (Some "SUV") (Some "Acme")
                  (Some 20000) (Some 30000)) eq_refl).
Defined.

Lemma to_car_details_all_none (l : list car) :
  to_car_details_all l = None <-> exists c, In c l /\ to_car_details c = None.
Proof.
  induction l as [|x l IH]; simpl.
  - split; [discriminate | intros [c [[] _]]].
  - destruct (to_car_details x) as [cd|] eqn:Ex.
    + destruct (to_car_details_all l) as [cds|] eqn:El.
      * split; [discriminate|]. intros [c [[<- | Hc] Hn]]; [congruence|].
        discriminate (proj2 IH (ex_intro _ c (conj Hc Hn))).
      * split; [intros _ | reflexivity]. destruct (proj1 IH eq_refl) as [c [Hc Hn]].
        exists c. auto.
    + split; [intros _; exists x; auto | reflexivity].
Qed.

Lemma to_car_details_all_some (l : list car) (ds : list CarDetails) :
  to_car_details_all l = Some ds ->
  forall d, In d ds -> exists c, In c l /\ to_car_details c = Some d.
Proof.
  revert ds. induction l as [|x l IH]; intros ds; simpl.
  - intros H. injection H as <-. intros d [].
  - destruct (to_car_details x) as [cd|] eqn:Ex; [|discriminate].
    destruct (to_car_details_all l) as [cds|] eqn:El; [|discriminate].
    intros H. injection H as <-. intros d [<- | Hd].
    + exists x. auto.
    + destruct (IH _ eq_refl d Hd) as [c [Hc Hcd]]. exists c. auto.
Qed.

Lemma to_car_details_availability (c : car) (d : CarDetails) :
  to_car_details c = Some d -> availability c = Some (cd_availability d).
Proof.
  unfold to_car_details.
  destruct (car_id_field c), (car_type c), (fuel_type c), (availability c);
    try discriminate.
  intros H. injection H as <-. reflexivity.
Qed.

(** X16: GET /api/v1/cars without a type lists only cars whose availability
    is true, and fails with 500 when an available entry lacks a key the
    response model requires and the entry may omit (id, type or fuel
    type). *)
Theorem list_cars_untyped (a : DealershipAssistant) (ct : option string) :
  truthy ct = false ->
  (forall ds, list_cars a ct = HttpOk ds -> Forall (fun d => cd_availability d = true) ds) /\
  ((exists c, In c (get_available_cars (knowledge_base a)) /\
              (car_id_field c = None \/ car_type c = None \/ fuel_type c = None)) ->
   list_cars a ct = HttpError 500 "Error listing cars: ").
Proof.
  intros Ht. unfold list_cars. rewrite Ht. split.
  - intros ds H. destruct (to_car_details_all _) eqn:E; [|discriminate].
    injection H as <-. apply Forall_forall. intros d Hd.
    destruct (to_car_details_all_some _ _ E d Hd) as [c [Hc Hcd]].
    apply get_available_cars_spec in Hc as [_ Hav].
    rewrite (to_car_details_availability c d Hcd) in Hav. injection Hav as ->. reflexivity.
  - intros [c [Hc Hmiss]].
    replace (to_car_details_all _) with (@None (list CarDetails)); [reflexivity|].
    symmetry. apply to_car_details_all_none. exists c. split; [exact Hc|].
    unfold to_car_details.
    destruct Hmiss as [-> | [-> | ->]];
      destruct (car_id_field c), (car_type c), (fuel_type c), (availability c); reflexivity.
Qed.

Lemma list_cars_untyped_witness :
  truthy None = false /\
  list_cars assistant_demo None = HttpOk [mk_car_details "suv_001" "Acme" "Explorer Pro" 2024 "SUV"
                                            "40000-45000" [] "Hybrid" true] /\
  Forall (fun d => cd_availability d = true)
    [mk_car_details "suv_001" "Acme" "Explorer Pro" 2024 "SUV" "40000-45000" [] "Hybrid" true].
Proof.
  assert (H : list_cars assistant_demo None
              = HttpOk [mk_car_details "suv_001" "Acme" "Explorer Pro" 2024 "SUV"
                          "40000-45000" [] "Hybrid" true]) by (vm_compute; reflexivity).
  split; [reflexivity|]. split; [exact H|].
  exact (proj1 (list_cars_untyped assistant_demo None eq_refl) _ H).
Defined.

(** X18: for any functions standing for [str.strip] and [str.lower], the text
    loop hands the assistant exactly the stripped, non-blank lines before the
    first exit word ("bye", "goodbye", "exit", "quit" after lowering), prints
    their replies in order, and says the farewell exactly when it met an exit
    word; otherwise it reaches the end of input, where it keeps catching
    [EOFError] and never calls the assistant again. No message it hands on is
    empty or an exit word. *)
Theorem run_text_interaction_spec (str_strip str_lower : string -> string) (o : oracle)
    (a : DealershipAssistant) (lines : list string) :
  run_text_interaction str_strip str_lower o a lines =
    (let '(ms, ex) := text_messages str_strip str_lower lines in
     let '(rs, a') := process_all o a ms in
     if ex then ((rs ++ [farewell])%list, ExitWord, a') else (rs, EndOfInput, a')) /\
  Forall (fun m => m <> "" /\ text_exit_with str_lower m = false)
    (fst (text_messages str_strip str_lower lines)).
Proof.
  revert a. induction lines as [|l rest IH]; intros a; simpl; [split; [reflexivity | constructor]|].
  destruct (String.eqb_spec (str_strip l) "") as [E|E]; [apply IH|].
  destruct (text_exit_with str_lower (str_strip l)) eqn:Ex; [split; [reflexivity | constructor]|].
  destruct (process_text o a (str_strip l)) as [r a1] eqn:Ep.
  destruct (IH a1) as [Hrun Hall]. rewrite Hrun.
  destruct (text_messages str_strip str_lower rest) as [ms ex]. simpl.
  rewrite Ep. destruct (process_all o a1 ms) as [rs a2].
  split; [|constructor; [split; [exact E | exact Ex] | exact Hall]].
  destruct ex; reflexivity.
Qed.

Lemma str_append_nil_r (s : string) : s ++ "" = s.
Proof. induction s as [|c s IH]; simpl; [reflexivity | rewrite IH; reflexivity]. Qed.

Lemma str_contains_self (w : string) : str_contains w w = true.
Proof. apply str_contains_spec. exists "", "". simpl. rewrite str_append_nil_r. reflexivity. Qed.

(** X19: the voice loop's exit test is looser than the text loop's: it
    accepts every input the text loop accepts, and any input containing
    "quit" anywhere in any case ("I'm quite interested") ends the voice
    conversation. *)
Theorem voice_exit_substring (s pre suf : string) :
  (text_exit s = true -> voice_exit s = true) /\
  voice_exit (pre ++ "quit" ++ suf) = true.
Proof.
  split.
  - unfold text_exit, voice_exit. rewrite !existsb_exists. intros [w [Hw He]].
    apply String.eqb_eq in He. exists w. split; [exact Hw|]. rewrite He. apply str_contains_self.
  - unfold voice_exit. apply existsb_exists. exists "quit". split; [simpl; auto|].
    apply str_contains_spec. exists (lower pre), (lower suf).
    rewrite !lower_append. reflexivity.
Qed.

Lemma voice_exit_substring_witness :
  text_exit "Goodbye" = true /\ voice_exit "Goodbye" = true /\
  voice_exit ("I'm " ++ "quit" ++ "e interested in the SUV") = true /\
  text_exit "I'm quite interested in the SUV" = false.
Proof.
  split; [reflexivity|].
  split; [apply (proj1 (voice_exit_substring "Goodbye" "" "")); reflexivity|].
  split; [exact (proj2 (voice_exit_substring "" "I'm " "e interested in the SUV"))|].
  vm_compute. reflexivity.
Defined.

(** X20: the WebSocket loop answers exactly the received messages that are
    present and non-empty, in order, each reply tagged with the client
    identifier; absent or empty messages leave the conversation untouched. *)
Theorem websocket_chat_spec (o : oracle) (a : DealershipAssistant) (cid : string)
    (received : list (option string)) :
  websocket_chat o a cid received =
    (let '(rs, a') := process_all o a (filter (fun m => negb (String.eqb m ""))
                                              (map opt_str received)) in
     (map (fun r => (r, cid)) rs, a')).
Proof.
  revert a. induction received as [|m rest IH]; intros a; simpl; [reflexivity|].
  destruct (String.eqb (opt_str m) "") eqn:E; simpl; [apply IH|].
  destruct (process_text o a (opt_str m)) as [r a1].
  rewrite IH. destruct (process_all o a1 _) as [rs a2]. reflexivity.
Qed.
